(** * Promotion GraphQL types: event-kind resolution and field resolvers

    A shallow embedding of [saleor/graphql/discount/types/promotions.py].
    The module declares graphene object types for promotions, promotion
    rules and promotion events.  Its executable content is
      - the static table [PROMOTION_EVENT_MAP] and the two [resolve_type]
        methods that consult it,
      - the resolvers that delegate to request-scoped data loaders,
      - [PromotionEvent.resolve_created_by], which guards the loaded
        principal with an ownership-or-permission check,
      - [PromotionRuleEvent.resolve_rule_id], a dictionary lookup.

    Resolvers are modelled in a small monad that records, in order, every
    call made to a collaborator (a loader or the permission check) and
    that either returns a value or raises. *)

From stdpp Require Import gmap strings list fin_maps.

Open Scope string_scope.
Open Scope Z_scope.

(* ===================================================================== *)
(** ** Values carried by the models *)
(* ===================================================================== *)

(** A JSON document as Python sees it after decoding: [JNull] is Python's
    [None], a JSON object is a [dict] with string keys. *)
#[local] Unset Elimination Schemes.
Inductive JSON : Type :=
| JNull
| JBool (b : bool)
| JNumber (n : Z)
| JString (s : string)
| JArray (items : list JSON)
| JObject (fields : gmap string JSON).
#[local] Set Elimination Schemes.

(** Permission enumerants named by the module.  The constructors stand for
    [AccountPermissions.MANAGE_STAFF], [AppPermission.MANAGE_APPS],
    [AuthorizationFilters.AUTHENTICATED_APP] and
    [AuthorizationFilters.AUTHENTICATED_STAFF_USER]; every other member of
    those enumerations is an [OtherPermission] with its code name. *)
Inductive Permission : Type :=
| MANAGE_STAFF
| MANAGE_APPS
| AUTHENTICATED_APP
| AUTHENTICATED_STAFF_USER
| OtherPermission (codename : string).

#[global] Instance Permission_eq_dec : EqDecision Permission.
Proof. solve_decision. Defined.

Module AccountPermissions.
Definition MANAGE_STAFF : Permission := MANAGE_STAFF.
End AccountPermissions.

Module AppPermission.
Definition MANAGE_APPS : Permission := MANAGE_APPS.
End AppPermission.

Module AuthorizationFilters.
Definition AUTHENTICATED_APP : Permission := AUTHENTICATED_APP.
Definition AUTHENTICATED_STAFF_USER : Permission := AUTHENTICATED_STAFF_USER.
End AuthorizationFilters.

(** Modelled from the spec: the declared event kinds of
    [saleor.discount.PromotionEvents], which the module imports as
    [events].  The spec lists the seven kinds by these names. *)
Module events.
Definition PROMOTION_CREATED : string := "promotion_created".
Definition PROMOTION_UPDATED : string := "promotion_updated".
Definition PROMOTION_STARTED : string := "promotion_started".
Definition PROMOTION_ENDED : string := "promotion_ended".
Definition RULE_CREATED : string := "rule_created".
Definition RULE_UPDATED : string := "rule_updated".
Definition RULE_DELETED : string := "rule_deleted".

(** The declared kind enumeration, in declaration order. *)
Definition CHOICES : list string :=
  [ PROMOTION_CREATED; PROMOTION_UPDATED; PROMOTION_STARTED;
    PROMOTION_ENDED; RULE_CREATED; RULE_UPDATED; RULE_DELETED ].
End events.

(* ===================================================================== *)
(** ** Database models and principals *)
(* ===================================================================== *)

(** Primary and foreign keys are Python integers; a nullable foreign key
    is an [option]. *)
Module models.

Record User : Type := {
  user_pk : Z;
  user_is_staff : bool;
  user_permissions : list Permission }.

Record App : Type := {
  app_pk : Z;
  app_permissions : list Permission }.

Record Channel : Type := {
  channel_pk : Z;
  channel_slug : string }.

Record Promotion : Type := {
  promotion_pk : Z;
  promotion_name : string }.

Record PromotionRule : Type := {
  rule_pk : Z;
  rule_name : option string;
  promotion_id : Z }.

Record PromotionEvent : Type := {
  event_pk : Z;
  type : string;
  user_id : option Z;
  app_id : option Z;
  parameters : gmap string JSON }.

End models.

(** The value of a [UserOrApp] field, which is also what a request is made
    by: a user or an app. *)
Inductive Principal : Type :=
| IsUser (u : models.User)
| IsApp (a : models.App).

(** Python's [==] on model instances: same model class and same primary
    key. *)
Definition principal_eqb (x y : Principal) : bool :=
  match x, y with
  | IsUser u, IsUser v => models.user_pk u =? models.user_pk v
  | IsApp a, IsApp b => models.app_pk a =? models.app_pk b
  | _, _ => false
  end.

(** [requestor == owner] where the owner may be [None]. *)
Definition is_owner (requestor : Principal) (owner : option Principal) : bool :=
  match owner with
  | Some o => principal_eqb requestor o
  | None => false
  end.

Definition permissions_of (p : Principal) : list Permission :=
  match p with
  | IsUser u => models.user_permissions u
  | IsApp a => models.app_permissions a
  end.

Definition has_perm (p : Principal) (perm : Permission) : bool :=
  bool_decide (perm ∈ permissions_of p).

(* ===================================================================== *)
(** ** The presentation types declared by the module *)
(* ===================================================================== *)

(** The seven concrete event variants (the [ModelObjectType] subclasses
    over [models.PromotionEvent]). *)
Inductive ObjectType : Type :=
| PromotionCreatedEvent
| PromotionUpdatedEvent
| PromotionStartedEvent
| PromotionEndedEvent
| PromotionRuleCreatedEvent
| PromotionRuleUpdatedEvent
| PromotionRuleDeletedEvent.

#[global] Instance ObjectType_eq_dec : EqDecision ObjectType.
Proof. solve_decision. Defined.

Inductive Interface : Type :=
| relay_Node
| IPromotionEvent
| IPromotionRuleEvent.

#[global] Instance Interface_eq_dec : EqDecision Interface.
Proof. solve_decision. Defined.

(** [Meta.interfaces] of each variant. *)
Definition interfaces (t : ObjectType) : list Interface :=
  match t with
  | PromotionCreatedEvent => [relay_Node; IPromotionEvent]
  | PromotionUpdatedEvent => [relay_Node; IPromotionEvent]
  | PromotionStartedEvent => [relay_Node; IPromotionEvent]
  | PromotionEndedEvent => [relay_Node; IPromotionEvent]
  | PromotionRuleCreatedEvent => [relay_Node; IPromotionEvent; IPromotionRuleEvent]
  | PromotionRuleUpdatedEvent => [relay_Node; IPromotionEvent; IPromotionRuleEvent]
  | PromotionRuleDeletedEvent => [relay_Node; IPromotionEvent; IPromotionRuleEvent]
  end.

(** The module-level dictionary [PROMOTION_EVENT_MAP]: its items in the
    order the literal lists them, and the dictionary they build. *)
Definition PROMOTION_EVENT_MAP_items : list (string * ObjectType) :=
  [ (events.PROMOTION_CREATED, PromotionCreatedEvent);
    (events.PROMOTION_UPDATED, PromotionUpdatedEvent);
    (events.PROMOTION_STARTED, PromotionStartedEvent);
    (events.PROMOTION_ENDED, PromotionEndedEvent);
    (events.RULE_CREATED, PromotionRuleCreatedEvent);
    (events.RULE_UPDATED, PromotionRuleUpdatedEvent);
    (events.RULE_DELETED, PromotionRuleDeletedEvent) ].

Definition PROMOTION_EVENT_MAP : gmap string ObjectType :=
  list_to_map PROMOTION_EVENT_MAP_items.

(* ===================================================================== *)
(** ** Resolver monad: a call log and a result or an exception *)
(* ===================================================================== *)

Inductive Loader : Type :=
| UserByUserIdLoader
| AppByIdLoader
| ChannelsByPromotionRuleIdLoader
| PromotionByIdLoader
| PromotionEventsByPromotionIdLoader
| PromotionRulesByPromotionIdLoader.

(** What a resolver asked of its collaborators. *)
Inductive Call : Type :=
| Load (loader : Loader) (key : Z)
| Check (requestor : Principal) (owner : option Principal) (perms : list Permission).

Inductive Exn : Type :=
| PermissionDenied (perms : list Permission).

Inductive Outcome (A : Type) : Type :=
| Returned (a : A)
| Raised (e : Exn).
Arguments Returned {A} a.
Arguments Raised {A} e.

(** A resolver run extends the log of calls made so far and settles to
    an outcome.  A promise returned by [load(...).then(f)] is identified
    with the outcome it settles to. *)
Definition Resolver (A : Type) : Type := list Call -> Outcome A * list Call.

Definition ret {A} (a : A) : Resolver A := fun log => (Returned a, log).

Definition raise {A} (e : Exn) : Resolver A := fun log => (Raised e, log).

Definition bind {A B} (m : Resolver A) (k : A -> Resolver B) : Resolver B :=
  fun log =>
    match m log with
    | (Returned a, log') => k a log'
    | (Raised e, log') => (Raised e, log')
    end.

Definition call (c : Call) : Resolver unit := fun log => (Returned tt, (log ++ [c])%list).

Declare Scope resolver_scope.
Delimit Scope resolver_scope with resolver.
Notation "x <- m ;; k" := (bind m (fun x => k))
  (at level 100, m at next level, right associativity) : resolver_scope.
Notation "m ;;; k" := (bind m (fun _ => k))
  (at level 100, right associativity) : resolver_scope.
Open Scope resolver_scope.

(** Run a resolver from an empty log. *)
Definition run {A} (m : Resolver A) : Outcome A * list Call := m [].
Definition outcome {A} (m : Resolver A) : Outcome A := fst (run m).
Definition calls {A} (m : Resolver A) : list Call := snd (run m).

(* ===================================================================== *)
(** ** Request context and collaborators *)
(* ===================================================================== *)

(** [info.context]: who makes the request and what the request-scoped
    loaders resolve each key to. *)
Record Context : Type := {
  requester : option Principal;
  users_by_id : Z -> option models.User;
  apps_by_id : Z -> option models.App;
  promotions_by_id : Z -> option models.Promotion;
  rules_by_promotion_id : Z -> list models.PromotionRule;
  events_by_promotion_id : Z -> list models.PromotionEvent;
  channels_by_rule_id : Z -> list models.Channel }.

(** Modelled from the spec: the "current requester" accessor
    [get_user_or_app_from_context] of [saleor.graphql.utils]; it yields
    the requesting user or app, or nothing. *)
Definition get_user_or_app_from_context (ctx : Context) : option Principal :=
  requester ctx.

(** Modelled from the spec: the batched-load collaborators of
    [saleor.graphql.*.dataloaders], with the contract
    [load(key) -> eventually resolves to value-or-null].  [then_] below is
    the promise's [.then]. *)
Definition load {A} (l : Loader) (backing : Z -> A) (key : Z) : Resolver A :=
  call (Load l key) ;;; ret (backing key).

Definition then_ {A B} (p : Resolver A) (f : A -> Resolver B) : Resolver B :=
  bind p f.

(** Modelled from the spec: [check_is_owner_or_has_one_of_perms(requester,
    subject, permission_set) -> void | raises] of
    [saleor.graphql.account.utils]: it passes when the requester is the
    subject itself or holds one of the permissions, and raises an
    authorization failure otherwise. *)
Definition is_owner_or_has_one_of_perms
    (requestor : Principal) (owner : option Principal) (perms : list Permission) : bool :=
  is_owner requestor owner || existsb (has_perm requestor) perms.

Definition check_is_owner_or_has_one_of_perms
    (requestor : Principal) (owner : option Principal) (perms : list Permission)
    : Resolver unit :=
  call (Check requestor owner perms) ;;;
  if is_owner_or_has_one_of_perms requestor owner perms
  then ret tt
  else raise (PermissionDenied perms).

(** Python truthiness of a nullable integer key: [None] and [0] are
    falsy.  The result is the key when the test [if root.key_id:] passes. *)
Definition truthy (v : option Z) : option Z :=
  match v with
  | Some k => if k =? 0 then None else Some k
  | None => None
  end.

(** Modelled from the spec: [PermissionsField] of
    [saleor.graphql.core.fields] and the authorization-filter policy it
    applies.  The declared permission requirements of a field are checked
    before its resolver runs; a caller passes when it meets one of them,
    and is denied otherwise.  [AUTHENTICATED_APP] is met by an app,
    [AUTHENTICATED_STAFF_USER] by a staff user, any other permission by a
    requester that holds it. *)
Definition meets (ctx : Context) (perm : Permission) : bool :=
  match perm, requester ctx with
  | AUTHENTICATED_APP, Some (IsApp _) => true
  | AUTHENTICATED_APP, _ => false
  | AUTHENTICATED_STAFF_USER, Some (IsUser u) => models.user_is_staff u
  | AUTHENTICATED_STAFF_USER, _ => false
  | _, Some r => has_perm r perm
  | _, None => false
  end.

Definition PermissionsField {A} (permissions : list Permission)
    (resolver : Context -> Resolver A) (ctx : Context) : Resolver A :=
  if existsb (meets ctx) permissions
  then resolver ctx
  else raise (PermissionDenied permissions).

(** The caller classes the authorization filters tell apart. *)
Inductive CallerClass : Type :=
| Unauthenticated
| AuthenticatedCustomer
| AuthenticatedStaffUser
| AuthenticatedApp.

Definition caller_class (ctx : Context) : CallerClass :=
  match requester ctx with
  | None => Unauthenticated
  | Some (IsApp _) => AuthenticatedApp
  | Some (IsUser u) =>
      if models.user_is_staff u then AuthenticatedStaffUser else AuthenticatedCustomer
  end.

(* ===================================================================== *)
(** ** Resolvers *)
(* ===================================================================== *)

Module Promotion.

Definition resolve_rules (root : models.Promotion) (ctx : Context)
    : Resolver (list models.PromotionRule) :=
  load PromotionRulesByPromotionIdLoader (rules_by_promotion_id ctx)
       (models.promotion_pk root).

Definition resolve_events (root : models.Promotion) (ctx : Context)
    : Resolver (list models.PromotionEvent) :=
  load PromotionEventsByPromotionIdLoader (events_by_promotion_id ctx)
       (models.promotion_pk root).

End Promotion.

Module PromotionRule.

(** The [permissions=] argument of the [channels] field. *)
Definition channels_permissions : list Permission :=
  [ AuthorizationFilters.AUTHENTICATED_APP;
    AuthorizationFilters.AUTHENTICATED_STAFF_USER ].

Definition resolve_promotion (root : models.PromotionRule) (ctx : Context)
    : Resolver (option models.Promotion) :=
  load PromotionByIdLoader (promotions_by_id ctx) (models.promotion_id root).

Definition resolve_channels (root : models.PromotionRule) (ctx : Context)
    : Resolver (list models.Channel) :=
  load ChannelsByPromotionRuleIdLoader (channels_by_rule_id ctx)
       (models.rule_pk root).

(** The [channels] field: the resolver behind its declared gate. *)
Definition channels (root : models.PromotionRule) : Context -> Resolver (list models.Channel) :=
  PermissionsField channels_permissions (resolve_channels root).

End PromotionRule.

Definition resolve_event_type (root : models.PromotionEvent) (ctx : Context)
    : Resolver string :=
  ret (models.type root).

Module PromotionEvent.

(** The [permissions=] argument of the [created_by] field. *)
Definition created_by_permissions : list Permission :=
  [ AccountPermissions.MANAGE_STAFF; AppPermission.MANAGE_APPS ].

Definition resolve_type (instance : models.PromotionEvent) (ctx : Context)
    : Resolver (option ObjectType) :=
  ret (PROMOTION_EVENT_MAP !! models.type instance).

Definition resolve_created_by (root : models.PromotionEvent) (ctx : Context)
    : Resolver (option Principal) :=
  match get_user_or_app_from_context ctx with
  | None => ret None
  | Some requester =>
      let _resolve_user (user : option models.User) : Resolver (option Principal) :=
        check_is_owner_or_has_one_of_perms
          requester (IsUser <$> user) [AccountPermissions.MANAGE_STAFF] ;;;
        ret (IsUser <$> user) in
      let _resolve_app (app : option models.App) : Resolver (option Principal) :=
        check_is_owner_or_has_one_of_perms
          requester (IsApp <$> app) [AppPermission.MANAGE_APPS] ;;;
        ret (IsApp <$> app) in
      match truthy (models.user_id root) with
      | Some uid =>
          then_ (load UserByUserIdLoader (users_by_id ctx) uid) _resolve_user
      | None =>
          match truthy (models.app_id root) with
          | Some aid =>
              then_ (load AppByIdLoader (apps_by_id ctx) aid) _resolve_app
          | None => ret None
          end
      end
  end.

(** The [created_by] field: the resolver behind its declared gate. *)
Definition created_by (root : models.PromotionEvent)
    : Context -> Resolver (option Principal) :=
  PermissionsField created_by_permissions (resolve_created_by root).

End PromotionEvent.

Module PromotionRuleEvent.

(** [root.parameters.get("rule_id", None)]. *)
Definition resolve_rule_id (root : models.PromotionEvent) (ctx : Context)
    : Resolver JSON :=
  ret (default JNull (models.parameters root !! "rule_id")).

End PromotionRuleEvent.

Module UnionPromotionEvent.

(** [Meta.types]: the values of the table. *)
Definition types : list ObjectType :=
  PROMOTION_EVENT_MAP_items.*2.

Definition resolve_type (instance : models.PromotionEvent) (ctx : Context)
    : Resolver (option ObjectType) :=
  ret (PROMOTION_EVENT_MAP !! models.type instance).

End UnionPromotionEvent.

(* ===================================================================== *)
(** ** The statements of the specification about [created_by] *)
(* ===================================================================== *)

(** The requester of the context is the owner or holds the permission. *)
Definition authorized (ctx : Context) (owner : option Principal) (perm : Permission) : Prop :=
  exists r, get_user_or_app_from_context ctx = Some r
            /\ (is_owner r owner = true \/ has_perm r perm = true).

(** The claim about the user branch, as the specification words it: for
    an event with [user_id = U] and no [app_id], the loaded user is
    returned exactly when the requester is that user or holds
    [MANAGE_STAFF], and an authorization failure is raised otherwise. *)
Definition created_by_user_claim (root : models.PromotionEvent) (ctx : Context) : Prop :=
  forall U, models.user_id root = Some U -> models.app_id root = None ->
    (outcome (PromotionEvent.resolve_created_by root ctx)
       = Returned (IsUser <$> users_by_id ctx U)
     <-> authorized ctx (IsUser <$> users_by_id ctx U) AccountPermissions.MANAGE_STAFF)
    /\ (~ authorized ctx (IsUser <$> users_by_id ctx U) AccountPermissions.MANAGE_STAFF ->
        exists e, outcome (PromotionEvent.resolve_created_by root ctx) = Raised e).

(** The claim about precedence, as the specification words it: for an
    event with both keys set the user is loaded and permission-checked,
    and nothing of the app branch is evaluated. *)
Definition created_by_precedence_claim (root : models.PromotionEvent) (ctx : Context) : Prop :=
  forall U A, models.user_id root = Some U -> models.app_id root = Some A ->
    (exists r, calls (PromotionEvent.resolve_created_by root ctx)
               = [ Load UserByUserIdLoader U;
                   Check r (IsUser <$> users_by_id ctx U) [AccountPermissions.MANAGE_STAFF] ])
    /\ (forall k, Load AppByIdLoader k ∉ calls (PromotionEvent.resolve_created_by root ctx))
    /\ (forall r o, Check r o [AppPermission.MANAGE_APPS]
                    ∉ calls (PromotionEvent.resolve_created_by root ctx)).

(** The same event with its [app_id] cleared. *)
Definition without_app (root : models.PromotionEvent) : models.PromotionEvent :=
  {| models.event_pk := models.event_pk root;
     models.type := models.type root;
     models.user_id := models.user_id root;
     models.app_id := None;
     models.parameters := models.parameters root |}.

(** The same event with every falsy key ([None] or [0]) written as
    [None]. *)
Definition falsy_cleared (root : models.PromotionEvent) : models.PromotionEvent :=
  {| models.event_pk := models.event_pk root;
     models.type := models.type root;
     models.user_id := truthy (models.user_id root);
     models.app_id := truthy (models.app_id root);
     models.parameters := models.parameters root |}.

(** The same event over another parameters document. *)
Definition with_parameters (root : models.PromotionEvent) (params : gmap string JSON)
    : models.PromotionEvent :=
  {| models.event_pk := models.event_pk root;
     models.type := models.type root;
     models.user_id := models.user_id root;
     models.app_id := models.app_id root;
     models.parameters := params |}.

(** The permission [resolve_created_by] passes to the check for each kind
    of principal: [MANAGE_STAFF] in [_resolve_user], [MANAGE_APPS] in
    [_resolve_app]. *)
Definition required_permission (p : Principal) : Permission :=
  match p with
  | IsUser _ => AccountPermissions.MANAGE_STAFF
  | IsApp _ => AppPermission.MANAGE_APPS
  end.

(** The kinds whose variants implement [PromotionRuleEvent]. *)
Definition rule_kinds : list string :=
  [ events.RULE_CREATED; events.RULE_UPDATED; events.RULE_DELETED ].

(** The three ways a resolution of [created_by] can go. *)
Inductive created_by_run (root : models.PromotionEvent) (ctx : Context)
    : Outcome (option Principal) * list Call -> Prop :=
| created_by_nothing :
    get_user_or_app_from_context ctx = None
    \/ (truthy (models.user_id root) = None /\ truthy (models.app_id root) = None) ->
    created_by_run root ctx (Returned None, [])
| created_by_user (r : Principal) (uid : Z) :
    get_user_or_app_from_context ctx = Some r ->
    truthy (models.user_id root) = Some uid ->
    created_by_run root ctx
      ( if is_owner_or_has_one_of_perms
             r (IsUser <$> users_by_id ctx uid) [AccountPermissions.MANAGE_STAFF]
        then Returned (IsUser <$> users_by_id ctx uid)
        else Raised (PermissionDenied [AccountPermissions.MANAGE_STAFF]),
        [ Load UserByUserIdLoader uid;
          Check r (IsUser <$> users_by_id ctx uid) [AccountPermissions.MANAGE_STAFF] ] )
| created_by_app (r : Principal) (aid : Z) :
    get_user_or_app_from_context ctx = Some r ->
    truthy (models.user_id root) = None ->
    truthy (models.app_id root) = Some aid ->
    created_by_run root ctx
      ( if is_owner_or_has_one_of_perms
             r (IsApp <$> apps_by_id ctx aid) [AppPermission.MANAGE_APPS]
        then Returned (IsApp <$> apps_by_id ctx aid)
        else Raised (PermissionDenied [AppPermission.MANAGE_APPS]),
        [ Load AppByIdLoader aid;
          Check r (IsApp <$> apps_by_id ctx aid) [AppPermission.MANAGE_APPS] ] ).

(* ===================================================================== *)
(** ** Sample data used to exercise the theorems *)
(* ===================================================================== *)

Module samples.

Definition alice : models.User :=
  {| models.user_pk := 1; models.user_is_staff := false;
     models.user_permissions := [] |}.

Definition bob : models.User :=
  {| models.user_pk := 2; models.user_is_staff := false;
     models.user_permissions := [] |}.

Definition staff : models.User :=
  {| models.user_pk := 3; models.user_is_staff := true;
     models.user_permissions := [AccountPermissions.MANAGE_STAFF] |}.

Definition robot : models.App :=
  {| models.app_pk := 5; models.app_permissions := [AppPermission.MANAGE_APPS] |}.

Definition web : models.Channel :=
  {| models.channel_pk := 1; models.channel_slug := "web" |}.

Definition pos : models.Channel :=
  {| models.channel_pk := 2; models.channel_slug := "pos" |}.

Definition sale : models.Promotion :=
  {| models.promotion_pk := 10; models.promotion_name := "sale" |}.

Definition rule_a : models.PromotionRule :=
  {| models.rule_pk := 21; models.rule_name := Some "a"; models.promotion_id := 10 |}.

Definition rule_b : models.PromotionRule :=
  {| models.rule_pk := 20; models.rule_name := None; models.promotion_id := 10 |}.

Definition event (kind : string) (user app : option Z)
    (params : gmap string JSON) : models.PromotionEvent :=
  {| models.event_pk := 100; models.type := kind;
     models.user_id := user; models.app_id := app;
     models.parameters := params |}.

(** A request context over a small database, made by [who]. *)
Definition context (who : option Principal) : Context :=
  {| requester := who;
     users_by_id := fun k =>
       if k =? 1 then Some alice else
       if k =? 2 then Some bob else
       if k =? 3 then Some staff else None;
     apps_by_id := fun k => if k =? 5 then Some robot else None;
     promotions_by_id := fun k => if k =? 10 then Some sale else None;
     rules_by_promotion_id := fun k => if k =? 10 then [rule_a; rule_b] else [];
     events_by_promotion_id := fun k =>
       if k =? 10
       then [ event events.RULE_CREATED (Some 3) None {[ "rule_id" := JString "UnVsZToyMQ==" ]};
              event events.PROMOTION_CREATED (Some 3) None ∅;
              event events.PROMOTION_STARTED None None ∅ ]
       else [];
     channels_by_rule_id := fun k =>
       if k =? 21 then [web; pos] else if k =? 20 then [pos] else [] |}.

End samples.

(* ===================================================================== *)
(** ** Facts about the event table *)
(* ===================================================================== *)

Lemma PROMOTION_EVENT_MAP_keys :
  PROMOTION_EVENT_MAP_items.*1 = events.CHOICES.
Proof. reflexivity. Qed.

Lemma CHOICES_NoDup : NoDup events.CHOICES.
Proof. apply (bool_decide_unpack _). vm_compute. exact I. Qed.

(** A key is bound to a type exactly when the pair is one of the items. *)
Lemma PROMOTION_EVENT_MAP_lookup_Some (kind : string) (t : ObjectType) :
  PROMOTION_EVENT_MAP !! kind = Some t <-> (kind, t) ∈ PROMOTION_EVENT_MAP_items.
Proof.
  unfold PROMOTION_EVENT_MAP. symmetry.
  apply elem_of_list_to_map.
  rewrite PROMOTION_EVENT_MAP_keys. apply CHOICES_NoDup.
Qed.

Lemma PROMOTION_EVENT_MAP_lookup_None (kind : string) :
  PROMOTION_EVENT_MAP !! kind = None <-> kind ∉ events.CHOICES.
Proof.
  unfold PROMOTION_EVENT_MAP.
  rewrite <- PROMOTION_EVENT_MAP_keys. symmetry. apply not_elem_of_list_to_map.
Qed.

Lemma items_functional_inv (k1 k2 : string) (t : ObjectType) :
  (k1, t) ∈ PROMOTION_EVENT_MAP_items ->
  (k2, t) ∈ PROMOTION_EVENT_MAP_items ->
  k1 = k2.
Proof.
  unfold PROMOTION_EVENT_MAP_items.
  rewrite !elem_of_cons, !elem_of_nil.
  intros H1 H2.
  repeat match goal with
         | H : _ \/ _ |- _ => destruct H as [H | H]
         | H : False |- _ => destruct H
         | H : (_, _) = (_, _) |- _ => injection H as ? ?; subst
         end; congruence.
Qed.

(* ===================================================================== *)
(** ** Event kind to variant resolution *)
(* ===================================================================== *)

(** C1 — For every promotion event instance, the interface-level type
    resolution [PromotionEvent.resolve_type] and the union-level type
    resolution [UnionPromotionEvent.resolve_type] are the same resolver:
    each returns what [PROMOTION_EVENT_MAP] binds to the instance's
    [type], without calling any collaborator, so the two paths agree on
    every kind value. *)
Theorem resolve_type_interface_union_agree
    (instance : models.PromotionEvent) (ctx : Context) :
  PromotionEvent.resolve_type instance ctx
    = UnionPromotionEvent.resolve_type instance ctx
  /\ run (PromotionEvent.resolve_type instance ctx)
       = (Returned (PROMOTION_EVENT_MAP !! models.type instance), [])
  /\ run (UnionPromotionEvent.resolve_type instance ctx)
       = (Returned (PROMOTION_EVENT_MAP !! models.type instance), []).
Proof. repeat split. Qed.

(** C2 — For every event whose [type] is not one of the seven declared
    kinds, both the interface and the union type resolution return [None]
    (an absent match); neither raises. *)
Theorem resolve_type_unknown_kind
    (instance : models.PromotionEvent) (ctx : Context) :
  models.type instance ∉ events.CHOICES ->
  run (PromotionEvent.resolve_type instance ctx) = (Returned None, [])
  /\ run (UnionPromotionEvent.resolve_type instance ctx) = (Returned None, []).
Proof.
  intros Hkind.
  apply PROMOTION_EVENT_MAP_lookup_None in Hkind.
  unfold run, PromotionEvent.resolve_type, UnionPromotionEvent.resolve_type, ret.
  rewrite Hkind. split; reflexivity.
Qed.

Lemma resolve_type_unknown_kind_witness :
  let instance := samples.event "voucher_created" None None ∅ in
  let ctx := samples.context None in
  (models.type instance ∉ events.CHOICES)
  /\ run (PromotionEvent.resolve_type instance ctx) = (Returned None, [])
  /\ run (UnionPromotionEvent.resolve_type instance ctx) = (Returned None, []).
Proof.
  assert (Hkind : "voucher_created" ∉ events.CHOICES).
  { apply (bool_decide_unpack _). vm_compute. exact I. }
  split; [exact Hkind |].
  apply (resolve_type_unknown_kind
           (samples.event "voucher_created" None None ∅) (samples.context None)).
  exact Hkind.
Defined.

(** C3 — The lookup is total over the declared kind enumeration: there
    are exactly seven declared kinds, they are exactly the keys of
    [PROMOTION_EVENT_MAP], each kind is bound to its own variant type
    (created, updated, started, ended, rule created, rule updated, rule
    deleted, respectively), each to exactly one, and distinct kinds are
    bound to distinct variant types. *)
Theorem PROMOTION_EVENT_MAP_total_injective :
  length events.CHOICES = 7%nat
  /\ NoDup events.CHOICES
  /\ dom PROMOTION_EVENT_MAP = list_to_set events.CHOICES
  /\ size PROMOTION_EVENT_MAP = 7%nat
  /\ PROMOTION_EVENT_MAP !! events.PROMOTION_CREATED = Some PromotionCreatedEvent
  /\ PROMOTION_EVENT_MAP !! events.PROMOTION_UPDATED = Some PromotionUpdatedEvent
  /\ PROMOTION_EVENT_MAP !! events.PROMOTION_STARTED = Some PromotionStartedEvent
  /\ PROMOTION_EVENT_MAP !! events.PROMOTION_ENDED = Some PromotionEndedEvent
  /\ PROMOTION_EVENT_MAP !! events.RULE_CREATED = Some PromotionRuleCreatedEvent
  /\ PROMOTION_EVENT_MAP !! events.RULE_UPDATED = Some PromotionRuleUpdatedEvent
  /\ PROMOTION_EVENT_MAP !! events.RULE_DELETED = Some PromotionRuleDeletedEvent
  /\ (forall kind, kind ∈ events.CHOICES ->
        exists t, PROMOTION_EVENT_MAP !! kind = Some t
                  /\ forall t', PROMOTION_EVENT_MAP !! kind = Some t' -> t' = t)
  /\ (forall k1 k2 t1 t2,
        k1 <> k2 ->
        PROMOTION_EVENT_MAP !! k1 = Some t1 ->
        PROMOTION_EVENT_MAP !! k2 = Some t2 ->
        t1 <> t2).
Proof.
  assert (Hlookup : forall k t, (k, t) ∈ PROMOTION_EVENT_MAP_items ->
                                PROMOTION_EVENT_MAP !! k = Some t).
  { intros k t. apply PROMOTION_EVENT_MAP_lookup_Some. }
  assert (Hdom : dom PROMOTION_EVENT_MAP = list_to_set events.CHOICES).
  { unfold PROMOTION_EVENT_MAP. rewrite dom_list_to_map_L.
    by rewrite PROMOTION_EVENT_MAP_keys. }
  split; [reflexivity |].
  split; [apply CHOICES_NoDup |].
  split; [exact Hdom |].
  split.
  { rewrite <- size_dom, Hdom, size_list_to_set by apply CHOICES_NoDup.
    reflexivity. }
  repeat (split;
          [apply Hlookup; unfold PROMOTION_EVENT_MAP_items;
           rewrite !elem_of_cons; tauto |]).
  split.
  - intros kind Hin.
    assert (Hsome : is_Some (PROMOTION_EVENT_MAP !! kind)).
    { apply elem_of_dom. rewrite Hdom. by apply elem_of_list_to_set. }
    destruct Hsome as [t Ht]. exists t. split; [exact Ht |].
    intros t' Ht'. congruence.
  - intros k1 k2 t1 t2 Hne H1 H2 Heq. subst t2. apply Hne.
    apply PROMOTION_EVENT_MAP_lookup_Some in H1, H2.
    exact (items_functional_inv k1 k2 t1 H1 H2).
Qed.

(* ===================================================================== *)
(** ** Principal resolution: [created_by] *)
(* ===================================================================== *)

Lemma truthy_Some (k : Z) : k <> 0 -> truthy (Some k) = Some k.
Proof. intros Hk. simpl. destruct (Z.eqb_spec k 0); congruence. Qed.

Lemma truthy_None : truthy None = None.
Proof. reflexivity. Qed.

(** With a requester and a truthy [user_id], the resolver loads the user
    and then runs [_resolve_user] on what was loaded. *)
Lemma run_created_by_user
    (root : models.PromotionEvent) (ctx : Context) (r : Principal) (uid : Z) :
  get_user_or_app_from_context ctx = Some r ->
  truthy (models.user_id root) = Some uid ->
  run (PromotionEvent.resolve_created_by root ctx)
  = ( if is_owner_or_has_one_of_perms
           r (IsUser <$> users_by_id ctx uid) [AccountPermissions.MANAGE_STAFF]
      then Returned (IsUser <$> users_by_id ctx uid)
      else Raised (PermissionDenied [AccountPermissions.MANAGE_STAFF]),
      [ Load UserByUserIdLoader uid;
        Check r (IsUser <$> users_by_id ctx uid) [AccountPermissions.MANAGE_STAFF] ] ).
Proof.
  intros Hreq Huid.
  unfold run, PromotionEvent.resolve_created_by. rewrite Hreq, Huid.
  unfold then_, load, check_is_owner_or_has_one_of_perms, bind, call, ret, raise.
  simpl.
  destruct (is_owner_or_has_one_of_perms _ _ _); reflexivity.
Qed.

(** With a requester, a falsy [user_id] and a truthy [app_id], the
    resolver loads the app and then runs [_resolve_app]. *)
Lemma run_created_by_app
    (root : models.PromotionEvent) (ctx : Context) (r : Principal) (aid : Z) :
  get_user_or_app_from_context ctx = Some r ->
  truthy (models.user_id root) = None ->
  truthy (models.app_id root) = Some aid ->
  run (PromotionEvent.resolve_created_by root ctx)
  = ( if is_owner_or_has_one_of_perms
           r (IsApp <$> apps_by_id ctx aid) [AppPermission.MANAGE_APPS]
      then Returned (IsApp <$> apps_by_id ctx aid)
      else Raised (PermissionDenied [AppPermission.MANAGE_APPS]),
      [ Load AppByIdLoader aid;
        Check r (IsApp <$> apps_by_id ctx aid) [AppPermission.MANAGE_APPS] ] ).
Proof.
  intros Hreq Huid Haid.
  unfold run, PromotionEvent.resolve_created_by. rewrite Hreq, Huid, Haid.
  unfold then_, load, check_is_owner_or_has_one_of_perms, bind, call, ret, raise.
  simpl.
  destruct (is_owner_or_has_one_of_perms _ _ _); reflexivity.
Qed.

Lemma run_created_by_anonymous (root : models.PromotionEvent) (ctx : Context) :
  get_user_or_app_from_context ctx = None ->
  run (PromotionEvent.resolve_created_by root ctx) = (Returned None, []).
Proof.
  intros Hreq. unfold run, PromotionEvent.resolve_created_by.
  rewrite Hreq. reflexivity.
Qed.

Lemma is_owner_or_has_one_of_perms_single
    (r : Principal) (owner : option Principal) (perm : Permission) :
  is_owner_or_has_one_of_perms r owner [perm] = true
  <-> is_owner r owner = true \/ has_perm r perm = true.
Proof.
  unfold is_owner_or_has_one_of_perms. simpl.
  rewrite orb_false_r, orb_true_iff. reflexivity.
Qed.

(** C4 (as stated, refuted) — The user-branch claim fails for a request
    without a requester: the event records user 1, nobody is authorized,
    and the resolver returns [None] instead of raising.  It also fails
    when the recorded [user_id] is [0], which the test [if root.user_id:]
    treats as not set. *)
Lemma created_by_user_claim_fails :
  ~ created_by_user_claim
      (samples.event events.PROMOTION_CREATED (Some 1) None ∅)
      (samples.context None)
  /\ ~ created_by_user_claim
        (samples.event events.PROMOTION_CREATED (Some 0) None ∅)
        (samples.context (Some (IsUser samples.bob))).
Proof.
  split.
  - intros Hclaim.
    destruct (Hclaim 1 eq_refl eq_refl) as [_ Hraise].
    destruct Hraise as [e He].
    + intros (r & Hr & _). discriminate Hr.
    + vm_compute in He. discriminate He.
  - intros Hclaim.
    destruct (Hclaim 0 eq_refl eq_refl) as [_ Hraise].
    destruct Hraise as [e He].
    + intros (r & Hr & Hauth). injection Hr as <-.
      vm_compute in Hauth. destruct Hauth; discriminate.
    + vm_compute in He. discriminate He.
Qed.

(** C4 (amended) — For every event with a non-zero [user_id = U] and no
    [app_id], resolved for a context that yields a requester: the
    resolver loads user U and checks the requester against it, returns
    the loaded user exactly when the requester equals it or holds
    [MANAGE_STAFF], and otherwise the authorization failure of the check
    propagates. *)
Theorem created_by_user_branch
    (root : models.PromotionEvent) (ctx : Context) (r : Principal) (U : Z) :
  get_user_or_app_from_context ctx = Some r ->
  models.user_id root = Some U ->
  U <> 0 ->
  models.app_id root = None ->
  (outcome (PromotionEvent.resolve_created_by root ctx)
     = Returned (IsUser <$> users_by_id ctx U)
   <-> is_owner r (IsUser <$> users_by_id ctx U) = true
       \/ has_perm r AccountPermissions.MANAGE_STAFF = true)
  /\ (~ (is_owner r (IsUser <$> users_by_id ctx U) = true
         \/ has_perm r AccountPermissions.MANAGE_STAFF = true) ->
      outcome (PromotionEvent.resolve_created_by root ctx)
        = Raised (PermissionDenied [AccountPermissions.MANAGE_STAFF]))
  /\ calls (PromotionEvent.resolve_created_by root ctx)
     = [ Load UserByUserIdLoader U;
         Check r (IsUser <$> users_by_id ctx U) [AccountPermissions.MANAGE_STAFF] ].
Proof.
  intros Hreq Huid HU _.
  assert (Htruthy : truthy (models.user_id root) = Some U).
  { rewrite Huid. by apply truthy_Some. }
  unfold outcome, calls.
  rewrite (run_created_by_user root ctx r U Hreq Htruthy). simpl.
  rewrite <- is_owner_or_has_one_of_perms_single.
  destruct (is_owner_or_has_one_of_perms _ _ _) eqn:Hcheck.
  - repeat split; try done.
  - repeat split; try done.
Qed.

Lemma created_by_user_branch_witness :
  let root := samples.event events.PROMOTION_CREATED (Some 1) None ∅ in
  let ctx := samples.context (Some (IsUser samples.alice)) in
  outcome (PromotionEvent.resolve_created_by root ctx)
    = Returned (Some (IsUser samples.alice))
  /\ calls (PromotionEvent.resolve_created_by root ctx)
     = [ Load UserByUserIdLoader 1;
         Check (IsUser samples.alice) (Some (IsUser samples.alice))
               [AccountPermissions.MANAGE_STAFF] ].
Proof.
  pose proof (created_by_user_branch
                (samples.event events.PROMOTION_CREATED (Some 1) None ∅)
                (samples.context (Some (IsUser samples.alice)))
                (IsUser samples.alice) 1
                eq_refl eq_refl ltac:(discriminate) eq_refl) as (Hiff & _ & Hcalls).
  split.
  - apply Hiff. left. reflexivity.
  - exact Hcalls.
Defined.

(** C5 — If the request context yields no requester, [resolve_created_by]
    returns [None] for every event, whatever its [user_id] and [app_id],
    and calls neither a loader nor the ownership-or-permission check. *)
Theorem created_by_no_requester (root : models.PromotionEvent) (ctx : Context) :
  get_user_or_app_from_context ctx = None ->
  outcome (PromotionEvent.resolve_created_by root ctx) = Returned None
  /\ calls (PromotionEvent.resolve_created_by root ctx) = [].
Proof.
  intros Hreq. unfold outcome, calls.
  rewrite (run_created_by_anonymous root ctx Hreq). split; reflexivity.
Qed.

Lemma created_by_no_requester_witness :
  let root := samples.event events.RULE_UPDATED (Some 1) (Some 5) ∅ in
  let ctx := samples.context None in
  outcome (PromotionEvent.resolve_created_by root ctx) = Returned None
  /\ calls (PromotionEvent.resolve_created_by root ctx) = [].
Proof.
  exact (created_by_no_requester
           (samples.event events.RULE_UPDATED (Some 1) (Some 5) ∅)
           (samples.context None) eq_refl).
Defined.

(** C6 — For every event with neither [user_id] nor [app_id],
    [resolve_created_by] returns [None] for every requester (and for
    none): nothing is raised and no loader or permission check is
    called. *)
Theorem created_by_no_principal (root : models.PromotionEvent) (ctx : Context) :
  models.user_id root = None ->
  models.app_id root = None ->
  outcome (PromotionEvent.resolve_created_by root ctx) = Returned None
  /\ calls (PromotionEvent.resolve_created_by root ctx) = [].
Proof.
  intros Huid Haid.
  unfold outcome, calls, run, PromotionEvent.resolve_created_by.
  rewrite Huid, Haid.
  destruct (get_user_or_app_from_context ctx); split; reflexivity.
Qed.

Lemma created_by_no_principal_witness :
  let root := samples.event events.PROMOTION_STARTED None None ∅ in
  let ctx := samples.context (Some (IsUser samples.bob)) in
  outcome (PromotionEvent.resolve_created_by root ctx) = Returned None
  /\ calls (PromotionEvent.resolve_created_by root ctx) = [].
Proof.
  exact (created_by_no_principal
           (samples.event events.PROMOTION_STARTED None None ∅)
           (samples.context (Some (IsUser samples.bob))) eq_refl eq_refl).
Defined.

(** C7 (as stated, refuted) — The precedence claim fails for a request
    without a requester: the event records user 1 and app 5, and the
    resolver returns before loading or checking anything.  It also fails
    when the recorded [user_id] is [0]: the user test does not pass and
    the app branch is the one evaluated. *)
Lemma created_by_precedence_claim_fails :
  ~ created_by_precedence_claim
      (samples.event events.RULE_UPDATED (Some 1) (Some 5) ∅)
      (samples.context None)
  /\ ~ created_by_precedence_claim
        (samples.event events.RULE_UPDATED (Some 0) (Some 5) ∅)
        (samples.context (Some (IsUser samples.staff))).
Proof.
  split.
  - intros Hclaim.
    destruct (Hclaim 1 5 eq_refl eq_refl) as [[r Hcalls] _].
    vm_compute in Hcalls. discriminate Hcalls.
  - intros Hclaim.
    destruct (Hclaim 0 5 eq_refl eq_refl) as [[r Hcalls] _].
    vm_compute in Hcalls. discriminate Hcalls.
Qed.

(** C7 (amended) — For every event with both a non-zero [user_id] and an
    [app_id] set, [resolve_created_by] never evaluates the app branch (no
    call to [AppByIdLoader], no check against [MANAGE_APPS]) and behaves as
    it does on the same event without its [app_id]; whenever the context
    yields a requester it follows the user branch: it loads the user
    through [UserByUserIdLoader] and permission-checks it in
    [_resolve_user]. *)
Theorem created_by_user_precedence
    (root : models.PromotionEvent) (ctx : Context) (U A : Z) :
  models.user_id root = Some U ->
  U <> 0 ->
  models.app_id root = Some A ->
  (forall r, get_user_or_app_from_context ctx = Some r ->
     run (PromotionEvent.resolve_created_by root ctx)
     = ( if is_owner_or_has_one_of_perms
              r (IsUser <$> users_by_id ctx U) [AccountPermissions.MANAGE_STAFF]
         then Returned (IsUser <$> users_by_id ctx U)
         else Raised (PermissionDenied [AccountPermissions.MANAGE_STAFF]),
         [ Load UserByUserIdLoader U;
           Check r (IsUser <$> users_by_id ctx U) [AccountPermissions.MANAGE_STAFF] ] ))
  /\ (forall k, Load AppByIdLoader k ∉ calls (PromotionEvent.resolve_created_by root ctx))
  /\ (forall r o, Check r o [AppPermission.MANAGE_APPS]
                  ∉ calls (PromotionEvent.resolve_created_by root ctx))
  /\ run (PromotionEvent.resolve_created_by root ctx)
     = run (PromotionEvent.resolve_created_by (without_app root) ctx).
Proof.
  intros Huid HU _.
  assert (Htruthy : truthy (models.user_id root) = Some U).
  { rewrite Huid. by apply truthy_Some. }
  split; [intros r Hreq; by apply run_created_by_user |].
  unfold calls.
  destruct (get_user_or_app_from_context ctx) as [r |] eqn:Hreq.
  - rewrite (run_created_by_user root ctx r U Hreq Htruthy).
    rewrite (run_created_by_user (without_app root) ctx r U Hreq Htruthy).
    simpl. repeat split.
    + intros k Hin. rewrite !elem_of_cons, elem_of_nil in Hin.
      destruct Hin as [Hin | [Hin | []]]; discriminate Hin.
    + intros r' o Hin. rewrite !elem_of_cons, elem_of_nil in Hin.
      destruct Hin as [Hin | [Hin | []]]; discriminate Hin.
  - rewrite !(run_created_by_anonymous _ ctx Hreq).
    simpl. repeat split; intros; apply not_elem_of_nil.
Qed.

Lemma created_by_user_precedence_witness :
  let root := samples.event events.RULE_UPDATED (Some 1) (Some 5) ∅ in
  let ctx := samples.context (Some (IsUser samples.staff)) in
  run (PromotionEvent.resolve_created_by root ctx)
  = ( Returned (Some (IsUser samples.alice)),
      [ Load UserByUserIdLoader 1;
        Check (IsUser samples.staff) (Some (IsUser samples.alice))
              [AccountPermissions.MANAGE_STAFF] ] ).
Proof.
  exact (proj1 (created_by_user_precedence
                  (samples.event events.RULE_UPDATED (Some 1) (Some 5) ∅)
                  (samples.context (Some (IsUser samples.staff))) 1 5
                  eq_refl ltac:(discriminate) eq_refl)
               (IsUser samples.staff) eq_refl).
Defined.

(* ===================================================================== *)
(** ** Rule identifier of a rule event *)
(* ===================================================================== *)

(** C8 — For every event presented as one of the three rule variants
    (the types that implement [PromotionRuleEvent]), [resolve_rule_id]
    returns the value stored under the key ["rule_id"] of the event's
    parameters, and returns [None] (here [JNull]), raising nothing, when
    the key is absent. *)
Theorem resolve_rule_id_lookup
    (root : models.PromotionEvent) (ctx : Context) (t : ObjectType) :
  PROMOTION_EVENT_MAP !! models.type root = Some t ->
  IPromotionRuleEvent ∈ interfaces t ->
  (forall v, models.parameters root !! "rule_id" = Some v ->
     run (PromotionRuleEvent.resolve_rule_id root ctx) = (Returned v, []))
  /\ (models.parameters root !! "rule_id" = None ->
      run (PromotionRuleEvent.resolve_rule_id root ctx) = (Returned JNull, [])).
Proof.
  intros _ _.
  unfold run, PromotionRuleEvent.resolve_rule_id, ret.
  split.
  - intros v Hv. rewrite Hv. reflexivity.
  - intros Hv. rewrite Hv. reflexivity.
Qed.

(** The variants that expose [rule_id] are exactly the three rule
    variants. *)
Lemma rule_variants (t : ObjectType) :
  IPromotionRuleEvent ∈ interfaces t
  <-> t = PromotionRuleCreatedEvent
      \/ t = PromotionRuleUpdatedEvent
      \/ t = PromotionRuleDeletedEvent.
Proof.
  split.
  - destruct t; simpl; rewrite !elem_of_cons, elem_of_nil;
      intros H; try tauto;
      repeat (destruct H as [H | H]; try discriminate H); destruct H.
  - intros [-> | [-> | ->]]; simpl; rewrite !elem_of_cons; tauto.
Qed.

Lemma resolve_rule_id_lookup_witness :
  run (PromotionRuleEvent.resolve_rule_id
         (samples.event events.RULE_CREATED (Some 3) None
                        {[ "rule_id" := JString "UnVsZToyMQ==" ]})
         (samples.context (Some (IsUser samples.staff))))
    = (Returned (JString "UnVsZToyMQ=="), [])
  /\ run (PromotionRuleEvent.resolve_rule_id
            (samples.event events.RULE_DELETED (Some 3) None ∅)
            (samples.context (Some (IsUser samples.staff))))
     = (Returned JNull, []).
Proof.
  assert (Hrule : forall t, t = PromotionRuleCreatedEvent \/ t = PromotionRuleDeletedEvent ->
                            IPromotionRuleEvent ∈ interfaces t).
  { intros t Ht. apply rule_variants. tauto. }
  split.
  - apply (proj1 (resolve_rule_id_lookup
                    (samples.event events.RULE_CREATED (Some 3) None
                                   {[ "rule_id" := JString "UnVsZToyMQ==" ]})
                    (samples.context (Some (IsUser samples.staff)))
                    PromotionRuleCreatedEvent
                    eq_refl (Hrule _ (or_introl eq_refl)))).
    reflexivity.
  - apply (proj2 (resolve_rule_id_lookup
                    (samples.event events.RULE_DELETED (Some 3) None ∅)
                    (samples.context (Some (IsUser samples.staff)))
                    PromotionRuleDeletedEvent
                    eq_refl (Hrule _ (or_intror eq_refl)))).
    reflexivity.
Defined.

(* ===================================================================== *)
(** ** Channels of a rule: the gated field *)
(* ===================================================================== *)

Lemma run_resolve_channels (root : models.PromotionRule) (ctx : Context) :
  run (PromotionRule.resolve_channels root ctx)
  = ( Returned (channels_by_rule_id ctx (models.rule_pk root)),
      [ Load ChannelsByPromotionRuleIdLoader (models.rule_pk root) ] ).
Proof. reflexivity. Qed.

(** The gate of the [channels] field lets a caller through exactly when
    it is a staff user or an app. *)
Lemma channels_gate_open (ctx : Context) :
  existsb (meets ctx) PromotionRule.channels_permissions
  = match caller_class ctx with
    | AuthenticatedStaffUser | AuthenticatedApp => true
    | Unauthenticated | AuthenticatedCustomer => false
    end.
Proof.
  unfold caller_class, PromotionRule.channels_permissions. simpl.
  unfold meets, AuthorizationFilters.AUTHENTICATED_APP,
    AuthorizationFilters.AUTHENTICATED_STAFF_USER.
  destruct (requester ctx) as [[u | a] |]; simpl; try reflexivity.
  destruct (models.user_is_staff u); reflexivity.
Qed.

(** C9 — The [channels] field of a promotion rule declares exactly the
    two requirements [AUTHENTICATED_APP] and [AUTHENTICATED_STAFF_USER].
    For a staff user or an app it resolves to the whole channel list that
    [ChannelsByPromotionRuleIdLoader] gives for the rule's id; an
    unauthenticated caller and an authenticated non-staff user are denied
    before the loader is asked, so they get no list at all. *)
Theorem channels_field_gate (root : models.PromotionRule) (ctx : Context) :
  (forall p, p ∈ PromotionRule.channels_permissions
             <-> p = AuthorizationFilters.AUTHENTICATED_APP
                 \/ p = AuthorizationFilters.AUTHENTICATED_STAFF_USER)
  /\ (caller_class ctx = AuthenticatedStaffUser \/ caller_class ctx = AuthenticatedApp ->
      run (PromotionRule.channels root ctx)
      = ( Returned (channels_by_rule_id ctx (models.rule_pk root)),
          [ Load ChannelsByPromotionRuleIdLoader (models.rule_pk root) ] ))
  /\ (caller_class ctx = Unauthenticated \/ caller_class ctx = AuthenticatedCustomer ->
      run (PromotionRule.channels root ctx)
      = ( Raised (PermissionDenied PromotionRule.channels_permissions), [] )).
Proof.
  split.
  { intros p. unfold PromotionRule.channels_permissions.
    rewrite !elem_of_cons, elem_of_nil. tauto. }
  unfold PromotionRule.channels, PermissionsField.
  rewrite channels_gate_open.
  split; intros [Hclass | Hclass]; rewrite Hclass;
    first [apply run_resolve_channels | reflexivity].
Qed.

Lemma channels_field_gate_witness :
  run (PromotionRule.channels samples.rule_a
         (samples.context (Some (IsUser samples.staff))))
    = (Returned [samples.web; samples.pos], [Load ChannelsByPromotionRuleIdLoader 21])
  /\ run (PromotionRule.channels samples.rule_a
            (samples.context (Some (IsApp samples.robot))))
     = (Returned [samples.web; samples.pos], [Load ChannelsByPromotionRuleIdLoader 21])
  /\ run (PromotionRule.channels samples.rule_a (samples.context None))
     = (Raised (PermissionDenied PromotionRule.channels_permissions), [])
  /\ run (PromotionRule.channels samples.rule_a
            (samples.context (Some (IsUser samples.alice))))
     = (Raised (PermissionDenied PromotionRule.channels_permissions), []).
Proof.
  split; [| split; [| split]].
  - exact (proj1 (proj2 (channels_field_gate samples.rule_a
                           (samples.context (Some (IsUser samples.staff)))))
                 (or_introl eq_refl)).
  - exact (proj1 (proj2 (channels_field_gate samples.rule_a
                           (samples.context (Some (IsApp samples.robot)))))
                 (or_intror eq_refl)).
  - exact (proj2 (proj2 (channels_field_gate samples.rule_a (samples.context None)))
                 (or_introl eq_refl)).
  - exact (proj2 (proj2 (channels_field_gate samples.rule_a
                           (samples.context (Some (IsUser samples.alice)))))
                 (or_intror eq_refl)).
Defined.

(* ===================================================================== *)
(** ** Rules and events of a promotion *)
(* ===================================================================== *)

(** C10 — For every promotion whose loaders give N rules and M events for
    its id, [resolve_rules] yields exactly those N rules and
    [resolve_events] exactly those M events, each list as its loader
    returned it: same elements at the same positions, nothing filtered,
    reordered or sorted. *)
Theorem promotion_rules_events_as_loaded
    (root : models.Promotion) (ctx : Context) (N M : nat) :
  length (rules_by_promotion_id ctx (models.promotion_pk root)) = N ->
  length (events_by_promotion_id ctx (models.promotion_pk root)) = M ->
  exists rules evs,
    run (Promotion.resolve_rules root ctx)
      = (Returned rules, [Load PromotionRulesByPromotionIdLoader (models.promotion_pk root)])
    /\ run (Promotion.resolve_events root ctx)
       = (Returned evs, [Load PromotionEventsByPromotionIdLoader (models.promotion_pk root)])
    /\ length rules = N
    /\ length evs = M
    /\ (forall i : nat,
          rules !! i = rules_by_promotion_id ctx (models.promotion_pk root) !! i)
    /\ (forall i : nat,
          evs !! i = events_by_promotion_id ctx (models.promotion_pk root) !! i).
Proof.
  intros HN HM.
  exists (rules_by_promotion_id ctx (models.promotion_pk root)),
         (events_by_promotion_id ctx (models.promotion_pk root)).
  repeat split; assumption.
Qed.

Lemma promotion_rules_events_as_loaded_witness :
  exists rules evs,
    run (Promotion.resolve_rules samples.sale (samples.context None))
      = (Returned rules, [Load PromotionRulesByPromotionIdLoader 10])
    /\ run (Promotion.resolve_events samples.sale (samples.context None))
       = (Returned evs, [Load PromotionEventsByPromotionIdLoader 10])
    /\ length rules = 2%nat
    /\ length evs = 3%nat
    /\ rules !! 0%nat = Some samples.rule_a
    /\ rules !! 1%nat = Some samples.rule_b.
Proof.
  destruct (promotion_rules_events_as_loaded
              samples.sale (samples.context None) 2 3 eq_refl eq_refl)
    as (rules & evs & Hr & He & HN & HM & Hri & _).
  exists rules, evs.
  split; [exact Hr |]. split; [exact He |].
  split; [exact HN |]. split; [exact HM |].
  split; rewrite Hri; reflexivity.
Defined.

(* ===================================================================== *)
(** ** Further properties of [resolve_created_by] *)
(* ===================================================================== *)

Lemma truthy_inv_Some (v : option Z) (k : Z) :
  truthy v = Some k -> v = Some k /\ k <> 0.
Proof.
  destruct v as [z |]; simpl; [| discriminate].
  destruct (Z.eqb_spec z 0); [discriminate |].
  intros H. injection H as <-. split; [reflexivity | assumption].
Qed.

Lemma truthy_inv_None (v : option Z) :
  truthy v = None -> v = None \/ v = Some 0.
Proof.
  destruct v as [z |]; simpl; [| by left].
  destruct (Z.eqb_spec z 0); [subst; by right | discriminate].
Qed.

Lemma truthy_idemp (v : option Z) : truthy (truthy v) = truthy v.
Proof.
  destruct v as [z |]; simpl; [| reflexivity].
  destruct (Z.eqb_spec z 0) as [| Hz]; simpl; [reflexivity |].
  destruct (Z.eqb_spec z 0); [contradiction | reflexivity].
Qed.

Lemma run_created_by_neither (root : models.PromotionEvent) (ctx : Context) :
  truthy (models.user_id root) = None ->
  truthy (models.app_id root) = None ->
  run (PromotionEvent.resolve_created_by root ctx) = (Returned None, []).
Proof.
  intros Huid Haid. unfold run, PromotionEvent.resolve_created_by.
  rewrite Huid, Haid.
  destruct (get_user_or_app_from_context ctx); reflexivity.
Qed.

Lemma run_created_by_cases (root : models.PromotionEvent) (ctx : Context) :
  created_by_run root ctx (run (PromotionEvent.resolve_created_by root ctx)).
Proof.
  destruct (get_user_or_app_from_context ctx) as [r |] eqn:Hreq.
  - destruct (truthy (models.user_id root)) as [uid |] eqn:Huid.
    + rewrite (run_created_by_user root ctx r uid Hreq Huid).
      by apply created_by_user.
    + destruct (truthy (models.app_id root)) as [aid |] eqn:Haid.
      * rewrite (run_created_by_app root ctx r aid Hreq Huid Haid).
        by apply created_by_app.
      * rewrite (run_created_by_neither root ctx Huid Haid).
        apply created_by_nothing. by right.
  - rewrite (run_created_by_anonymous root ctx Hreq).
    apply created_by_nothing. by left.
Qed.

(** X1 — The app branch.  For every event without a [user_id] and with a
    non-zero [app_id = A], resolved for a context that yields a requester:
    the resolver loads app A through [AppByIdLoader] and checks the
    requester against it with [MANAGE_APPS]; it returns the loaded app
    exactly when the requester equals it or holds [MANAGE_APPS], and
    otherwise the authorization failure of the check propagates. *)
Theorem created_by_app_branch
    (root : models.PromotionEvent) (ctx : Context) (r : Principal) (A : Z) :
  get_user_or_app_from_context ctx = Some r ->
  models.user_id root = None ->
  models.app_id root = Some A ->
  A <> 0 ->
  (outcome (PromotionEvent.resolve_created_by root ctx)
     = Returned (IsApp <$> apps_by_id ctx A)
   <-> is_owner r (IsApp <$> apps_by_id ctx A) = true
       \/ has_perm r AppPermission.MANAGE_APPS = true)
  /\ (~ (is_owner r (IsApp <$> apps_by_id ctx A) = true
         \/ has_perm r AppPermission.MANAGE_APPS = true) ->
      outcome (PromotionEvent.resolve_created_by root ctx)
        = Raised (PermissionDenied [AppPermission.MANAGE_APPS]))
  /\ calls (PromotionEvent.resolve_created_by root ctx)
     = [ Load AppByIdLoader A;
         Check r (IsApp <$> apps_by_id ctx A) [AppPermission.MANAGE_APPS] ].
Proof.
  intros Hreq Huid Haid HA.
  assert (Hu : truthy (models.user_id root) = None) by (by rewrite Huid).
  assert (Ha : truthy (models.app_id root) = Some A).
  { rewrite Haid. by apply truthy_Some. }
  unfold outcome, calls.
  rewrite (run_created_by_app root ctx r A Hreq Hu Ha). simpl.
  rewrite <- is_owner_or_has_one_of_perms_single.
  destruct (is_owner_or_has_one_of_perms _ _ _) eqn:Hcheck;
    repeat split; try done.
Qed.

Lemma created_by_app_branch_witness :
  let root := samples.event events.RULE_DELETED None (Some 5) ∅ in
  outcome (PromotionEvent.resolve_created_by
             root (samples.context (Some (IsApp samples.robot))))
    = Returned (Some (IsApp samples.robot))
  /\ outcome (PromotionEvent.resolve_created_by
                root (samples.context (Some (IsUser samples.staff))))
     = Raised (PermissionDenied [AppPermission.MANAGE_APPS]).
Proof.
  split.
  - apply (proj1 (created_by_app_branch
                    (samples.event events.RULE_DELETED None (Some 5) ∅)
                    (samples.context (Some (IsApp samples.robot)))
                    (IsApp samples.robot) 5
                    eq_refl eq_refl eq_refl ltac:(discriminate))).
    left. reflexivity.
  - apply (proj1 (proj2 (created_by_app_branch
                    (samples.event events.RULE_DELETED None (Some 5) ∅)
                    (samples.context (Some (IsUser samples.staff)))
                    (IsUser samples.staff) 5
                    eq_refl eq_refl eq_refl ltac:(discriminate)))).
    intros [H | H]; vm_compute in H; discriminate H.
Defined.

(** X2 — [resolve_created_by] hands a principal only to a requester that
    may see it.  Whenever it returns a principal, the context has a
    requester, the principal is the one loaded for the event's own
    [user_id] (or, failing that, [app_id]), and the requester equals that
    principal or holds the permission of its branch ([MANAGE_STAFF] for a
    user, [MANAGE_APPS] for an app). *)
Theorem created_by_returns_only_to_authorized
    (root : models.PromotionEvent) (ctx : Context) (p : Principal) :
  outcome (PromotionEvent.resolve_created_by root ctx) = Returned (Some p) ->
  exists r,
    get_user_or_app_from_context ctx = Some r
    /\ (principal_eqb r p = true \/ has_perm r (required_permission p) = true)
    /\ ((exists k u, models.user_id root = Some k
                     /\ users_by_id ctx k = Some u /\ p = IsUser u)
        \/ (exists k a, models.app_id root = Some k
                        /\ apps_by_id ctx k = Some a /\ p = IsApp a)).
Proof.
  unfold outcome.
  destruct (run_created_by_cases root ctx) as [Hnone | r uid Hreq Huid | r aid Hreq Huid Haid];
    simpl.
  - discriminate.
  - destruct (is_owner_or_has_one_of_perms _ _ _) eqn:Hcheck; [| discriminate].
    intros Hret. injection Hret as Hp.
    apply is_owner_or_has_one_of_perms_single in Hcheck.
    apply truthy_inv_Some in Huid as [Huid _].
    destruct (users_by_id ctx uid) as [u |] eqn:Hu; [| discriminate Hp].
    simpl in Hp. injection Hp as <-.
    exists r. split; [exact Hreq |]. split; [exact Hcheck |].
    left. by exists uid, u.
  - destruct (is_owner_or_has_one_of_perms _ _ _) eqn:Hcheck; [| discriminate].
    intros Hret. injection Hret as Hp.
    apply is_owner_or_has_one_of_perms_single in Hcheck.
    apply truthy_inv_Some in Haid as [Haid _].
    destruct (apps_by_id ctx aid) as [a |] eqn:Ha; [| discriminate Hp].
    simpl in Hp. injection Hp as <-.
    exists r. split; [exact Hreq |]. split; [exact Hcheck |].
    right. by exists aid, a.
Qed.

Lemma created_by_returns_only_to_authorized_witness :
  exists r,
    get_user_or_app_from_context (samples.context (Some (IsUser samples.staff))) = Some r
    /\ (principal_eqb r (IsUser samples.alice) = true
        \/ has_perm r AccountPermissions.MANAGE_STAFF = true).
Proof.
  destruct (created_by_returns_only_to_authorized
              (samples.event events.PROMOTION_CREATED (Some 1) None ∅)
              (samples.context (Some (IsUser samples.staff)))
              (IsUser samples.alice) eq_refl)
    as (r & Hreq & Hauth & _).
  exists r. split; [exact Hreq | exact Hauth].
Defined.

(** X3 — One resolution of [created_by] asks its collaborators for at
    most one load and one check: the call log is empty, or it is exactly
    one loader call followed by one ownership-or-permission check. *)
Theorem created_by_calls_bounded (root : models.PromotionEvent) (ctx : Context) :
  calls (PromotionEvent.resolve_created_by root ctx) = []
  \/ exists l k r o perms,
       calls (PromotionEvent.resolve_created_by root ctx) = [Load l k; Check r o perms].
Proof.
  unfold calls.
  destruct (run_created_by_cases root ctx) as [Hnone | r uid Hreq Huid | r aid Hreq Huid Haid];
    simpl.
  - by left.
  - right. by eexists _, _, _, _, _.
  - right. by eexists _, _, _, _, _.
Qed.

(** X4 — Loaders are only asked for the event's own keys.  If
    [resolve_created_by] calls a loader, it is [UserByUserIdLoader] with
    the event's non-zero [user_id], or it is [AppByIdLoader] with the
    event's non-zero [app_id] and then the event has no [user_id] (it is
    [None] or [0]). *)
Theorem created_by_loads_own_keys
    (root : models.PromotionEvent) (ctx : Context) (l : Loader) (k : Z) :
  Load l k ∈ calls (PromotionEvent.resolve_created_by root ctx) ->
  (l = UserByUserIdLoader /\ models.user_id root = Some k /\ k <> 0)
  \/ (l = AppByIdLoader /\ models.app_id root = Some k /\ k <> 0
      /\ (models.user_id root = None \/ models.user_id root = Some 0)).
Proof.
  unfold calls.
  destruct (run_created_by_cases root ctx) as [Hnone | r uid Hreq Huid | r aid Hreq Huid Haid];
    simpl; rewrite ?elem_of_cons, ?elem_of_nil.
  - intros [].
  - intros [Hin | [Hin | []]]; [| discriminate Hin].
    injection Hin as -> ->. left.
    apply truthy_inv_Some in Huid. tauto.
  - intros [Hin | [Hin | []]]; [| discriminate Hin].
    injection Hin as -> ->. right.
    apply truthy_inv_Some in Haid. apply truthy_inv_None in Huid. tauto.
Qed.

Lemma created_by_loads_own_keys_witness :
  (AppByIdLoader = UserByUserIdLoader /\ Some 0 = Some 5 /\ 5 <> 0)
  \/ (AppByIdLoader = AppByIdLoader /\ Some 5 = Some 5 /\ 5 <> 0
      /\ (Some 0 = @None Z \/ Some 0 = Some 0)).
Proof.
  apply (created_by_loads_own_keys
           (samples.event events.RULE_UPDATED (Some 0) (Some 5) ∅)
           (samples.context (Some (IsUser samples.staff)))
           AppByIdLoader 5).
  vm_compute. apply list_elem_of_here.
Defined.



(** X6 — Every check [resolve_created_by] makes is made on behalf of the
    context's requester, against the principal it has just loaded, and
    for a single permission that is one of those the [created_by] field
    declares ([MANAGE_STAFF], [MANAGE_APPS]). *)
Theorem created_by_checks_declared_permissions
    (root : models.PromotionEvent) (ctx : Context)
    (r : Principal) (o : option Principal) (perms : list Permission) :
  Check r o perms ∈ calls (PromotionEvent.resolve_created_by root ctx) ->
  get_user_or_app_from_context ctx = Some r
  /\ (exists perm, perms = [perm] /\ perm ∈ PromotionEvent.created_by_permissions)
  /\ ((exists k, Load UserByUserIdLoader k
                   ∈ calls (PromotionEvent.resolve_created_by root ctx)
                 /\ o = IsUser <$> users_by_id ctx k)
      \/ (exists k, Load AppByIdLoader k
                      ∈ calls (PromotionEvent.resolve_created_by root ctx)
                    /\ o = IsApp <$> apps_by_id ctx k)).
Proof.
  unfold calls.
  destruct (run_created_by_cases root ctx) as [Hnone | r' uid Hreq Huid | r' aid Hreq Huid Haid];
    simpl; rewrite ?elem_of_cons, ?elem_of_nil.
  - intros [].
  - intros [Hin | [Hin | []]]; [discriminate Hin |].
    injection Hin as -> -> ->.
    split; [exact Hreq |]. split.
    + exists AccountPermissions.MANAGE_STAFF. split; [reflexivity |].
      unfold PromotionEvent.created_by_permissions. apply list_elem_of_here.
    + left. exists uid. split; [apply list_elem_of_here | reflexivity].
  - intros [Hin | [Hin | []]]; [discriminate Hin |].
    injection Hin as -> -> ->.
    split; [exact Hreq |]. split.
    + exists AppPermission.MANAGE_APPS. split; [reflexivity |].
      unfold PromotionEvent.created_by_permissions.
      apply list_elem_of_further, list_elem_of_here.
    + right. exists aid. split; [apply list_elem_of_here | reflexivity].
Qed.

Lemma created_by_checks_declared_permissions_witness :
  get_user_or_app_from_context (samples.context (Some (IsUser samples.staff)))
    = Some (IsUser samples.staff)
  /\ (exists perm, [AppPermission.MANAGE_APPS] = [perm]
                   /\ perm ∈ PromotionEvent.created_by_permissions).
Proof.
  destruct (created_by_checks_declared_permissions
              (samples.event events.RULE_DELETED None (Some 5) ∅)
              (samples.context (Some (IsUser samples.staff)))
              (IsUser samples.staff) (Some (IsApp samples.robot))
              [AppPermission.MANAGE_APPS])
    as (Hreq & Hperm & _).
  { vm_compute. apply list_elem_of_further, list_elem_of_here. }
  split; [exact Hreq | exact Hperm].
Defined.

(** X7 — A key of [0] is read as no key.  [resolve_created_by] gives the
    same result and makes the same calls on an event as on that event
    with every [user_id] or [app_id] equal to [0] replaced by [None]. *)
Theorem created_by_zero_key_as_unset (root : models.PromotionEvent) (ctx : Context) :
  run (PromotionEvent.resolve_created_by root ctx)
  = run (PromotionEvent.resolve_created_by (falsy_cleared root) ctx)
  /\ (models.user_id root = Some 0 -> models.app_id root = None ->
      run (PromotionEvent.resolve_created_by root ctx) = (Returned None, [])).
Proof.
  split.
  - unfold run, PromotionEvent.resolve_created_by, falsy_cleared. simpl.
    rewrite !truthy_idemp. reflexivity.
  - intros Huid Haid. apply run_created_by_neither.
    + by rewrite Huid.
    + by rewrite Haid.
Qed.

Lemma created_by_zero_key_as_unset_witness :
  run (PromotionEvent.resolve_created_by
         (samples.event events.PROMOTION_ENDED (Some 0) None ∅)
         (samples.context (Some (IsUser samples.staff))))
  = (Returned None, []).
Proof.
  exact (proj2 (created_by_zero_key_as_unset
                  (samples.event events.PROMOTION_ENDED (Some 0) None ∅)
                  (samples.context (Some (IsUser samples.staff))))
               eq_refl eq_refl).
Defined.

(* ===================================================================== *)
(** ** Further properties of the event variants *)
(* ===================================================================== *)

(** X8 — No event class is dead.  Each of the seven declared event
    variants is a member of the union's [types] and is what the table
    binds to exactly one declared kind; the union's [types] are the seven
    variants in the order of the table, without repetition. *)
Theorem every_variant_has_one_kind (t : ObjectType) :
  t ∈ UnionPromotionEvent.types
  /\ NoDup UnionPromotionEvent.types
  /\ length UnionPromotionEvent.types = 7%nat
  /\ exists kind,
       kind ∈ events.CHOICES
       /\ PROMOTION_EVENT_MAP !! kind = Some t
       /\ forall kind', PROMOTION_EVENT_MAP !! kind' = Some t -> kind' = kind.
Proof.
  split.
  { unfold UnionPromotionEvent.types, PROMOTION_EVENT_MAP_items. simpl.
    destruct t; rewrite !elem_of_cons; tauto. }
  split.
  { apply (bool_decide_unpack _). vm_compute. exact I. }
  split; [reflexivity |].
  assert (Hkind : exists kind, (kind, t) ∈ PROMOTION_EVENT_MAP_items).
  { unfold PROMOTION_EVENT_MAP_items.
    destruct t; eexists; rewrite !elem_of_cons; tauto. }
  destruct Hkind as [kind Hin]. exists kind.
  split.
  { rewrite <- PROMOTION_EVENT_MAP_keys.
    apply list_elem_of_fmap. exists (kind, t). split; [reflexivity | exact Hin]. }
  split; [by apply PROMOTION_EVENT_MAP_lookup_Some |].
  intros kind' Hlookup. apply PROMOTION_EVENT_MAP_lookup_Some in Hlookup.
  exact (items_functional_inv kind' kind t Hlookup Hin).
Qed.

(** X9 — The interface's type resolution always lands on an implementer.
    Whenever [PromotionEvent.resolve_type] returns a type, that type
    implements [relay.Node] and [PromotionEvent], and it implements
    [PromotionRuleEvent] (so exposes [rule_id]) exactly when the event's
    kind is [rule_created], [rule_updated] or [rule_deleted]. *)
Theorem resolved_type_interfaces
    (instance : models.PromotionEvent) (ctx : Context) (t : ObjectType) :
  outcome (PromotionEvent.resolve_type instance ctx) = Returned (Some t) ->
  relay_Node ∈ interfaces t
  /\ IPromotionEvent ∈ interfaces t
  /\ (IPromotionRuleEvent ∈ interfaces t <-> models.type instance ∈ rule_kinds).
Proof.
  unfold outcome, run, PromotionEvent.resolve_type, ret. simpl.
  intros Hret. injection Hret as Hlookup.
  apply PROMOTION_EVENT_MAP_lookup_Some in Hlookup.
  split; [destruct t; simpl; rewrite !elem_of_cons; tauto |].
  split; [destruct t; simpl; rewrite !elem_of_cons; tauto |].
  rewrite rule_variants.
  unfold PROMOTION_EVENT_MAP_items in Hlookup. unfold rule_kinds.
  rewrite !elem_of_cons, !elem_of_nil in Hlookup.
  rewrite !elem_of_cons, !elem_of_nil.
  repeat match type of Hlookup with
         | _ \/ _ => destruct Hlookup as [Hlookup | Hlookup]
         end;
    try (destruct Hlookup; fail);
    injection Hlookup as -> ->;
    (split; [ intros [H | [H | H]]; first [discriminate H | tauto]
            | intros [H | [H | [H | []]]]; first [discriminate H | tauto] ]).
Qed.

Lemma resolved_type_interfaces_witness :
  IPromotionRuleEvent ∈ interfaces PromotionRuleUpdatedEvent
  <-> events.RULE_UPDATED ∈ rule_kinds.
Proof.
  exact (proj2 (proj2 (resolved_type_interfaces
                         (samples.event events.RULE_UPDATED None None ∅)
                         (samples.context None)
                         PromotionRuleUpdatedEvent eq_refl))).
Defined.

(** X10 — For events of declared kinds, the variant an event is presented
    as and the value its [type] field exposes determine each other: two
    such events resolve to the same variant exactly when
    [resolve_event_type] returns the same kind for both. *)
Theorem variant_iff_event_type
    (e1 e2 : models.PromotionEvent) (ctx : Context) :
  models.type e1 ∈ events.CHOICES ->
  models.type e2 ∈ events.CHOICES ->
  (outcome (PromotionEvent.resolve_type e1 ctx)
     = outcome (PromotionEvent.resolve_type e2 ctx)
   <-> outcome (resolve_event_type e1 ctx) = outcome (resolve_event_type e2 ctx)).
Proof.
  intros H1 H2.
  unfold outcome, run, PromotionEvent.resolve_type, resolve_event_type, ret. simpl.
  split.
  - intros Heq. injection Heq as Heq. f_equal.
    destruct (PROMOTION_EVENT_MAP !! models.type e1) as [t |] eqn:Ht1.
    + symmetry in Heq.
      apply PROMOTION_EVENT_MAP_lookup_Some in Ht1, Heq.
      exact (items_functional_inv _ _ t Ht1 Heq).
    + apply PROMOTION_EVENT_MAP_lookup_None in Ht1. contradiction.
  - intros Heq. injection Heq as ->. reflexivity.
Qed.

Lemma variant_iff_event_type_witness :
  outcome (PromotionEvent.resolve_type
             (samples.event events.RULE_CREATED None None ∅) (samples.context None))
    = outcome (PromotionEvent.resolve_type
                 (samples.event events.RULE_CREATED (Some 3) None ∅) (samples.context None))
  <-> outcome (resolve_event_type
                 (samples.event events.RULE_CREATED None None ∅) (samples.context None))
      = outcome (resolve_event_type
                   (samples.event events.RULE_CREATED (Some 3) None ∅) (samples.context None)).
Proof.
  apply (variant_iff_event_type
           (samples.event events.RULE_CREATED None None ∅)
           (samples.event events.RULE_CREATED (Some 3) None ∅)
           (samples.context None));
    unfold events.CHOICES; simpl; rewrite !elem_of_cons; tauto.
Defined.

(* ===================================================================== *)
(** ** Further properties of [resolve_rule_id] *)
(* ===================================================================== *)

(** X11 — [resolve_rule_id] cannot tell a missing rule id from a null
    one: it returns [None] exactly when the parameters have no ["rule_id"]
    key or bind it to null. *)
Theorem resolve_rule_id_null_iff (root : models.PromotionEvent) (ctx : Context) :
  outcome (PromotionRuleEvent.resolve_rule_id root ctx) = Returned JNull
  <-> models.parameters root !! "rule_id" = None
      \/ models.parameters root !! "rule_id" = Some JNull.
Proof.
  unfold outcome, run, PromotionRuleEvent.resolve_rule_id, ret. simpl.
  destruct (models.parameters root !! "rule_id") as [v |]; simpl.
  - split.
    + intros H. injection H as ->. by right.
    + intros [H | H]; [discriminate H |]. injection H as ->. reflexivity.
  - split; [by left | reflexivity].
Qed.

(** X12 — [resolve_rule_id] reads the key ["rule_id"] and nothing else.
    After storing a value under ["rule_id"] it returns that value; after
    removing the key it returns [None]; storing or removing any other key
    does not change its result.  It never calls a collaborator. *)
Theorem resolve_rule_id_reads_one_key
    (root : models.PromotionEvent) (ctx : Context) (params : gmap string JSON) :
  (forall v,
     run (PromotionRuleEvent.resolve_rule_id
            (with_parameters root (<["rule_id" := v]> params)) ctx)
     = (Returned v, []))
  /\ run (PromotionRuleEvent.resolve_rule_id
            (with_parameters root (delete "rule_id" params)) ctx)
     = (Returned JNull, [])
  /\ (forall k v, k <> "rule_id" ->
        run (PromotionRuleEvent.resolve_rule_id
               (with_parameters root (<[k := v]> params)) ctx)
        = run (PromotionRuleEvent.resolve_rule_id (with_parameters root params) ctx))
  /\ (forall k, k <> "rule_id" ->
        run (PromotionRuleEvent.resolve_rule_id
               (with_parameters root (delete k params)) ctx)
        = run (PromotionRuleEvent.resolve_rule_id (with_parameters root params) ctx)).
Proof.
  unfold run, PromotionRuleEvent.resolve_rule_id, with_parameters, ret. simpl.
  split; [intros v; by rewrite lookup_insert_eq |].
  split; [by rewrite lookup_delete_eq |].
  split.
  - intros k v Hk. by rewrite lookup_insert_ne.
  - intros k Hk. by rewrite lookup_delete_ne.
Qed.

Lemma resolve_rule_id_reads_one_key_witness :
  run (PromotionRuleEvent.resolve_rule_id
         (with_parameters (samples.event events.RULE_UPDATED None None ∅)
            (<["name" := JString "spring"]> {[ "rule_id" := JString "UnVsZToyMQ==" ]}))
         (samples.context None))
  = run (PromotionRuleEvent.resolve_rule_id
           (with_parameters (samples.event events.RULE_UPDATED None None ∅)
              {[ "rule_id" := JString "UnVsZToyMQ==" ]})
           (samples.context None)).
Proof.
  apply (proj1 (proj2 (proj2 (resolve_rule_id_reads_one_key
                                (samples.event events.RULE_UPDATED None None ∅)
                                (samples.context None)
                                {[ "rule_id" := JString "UnVsZToyMQ==" ]})))).
  discriminate.
Defined.

(* ===================================================================== *)
(** ** From a promotion to its rules and back *)
(* ===================================================================== *)

(** X13 — Over loaders that agree with each other (the promotion loader
    knows the promotion under its id, and every rule the rules loader
    gives for that id points back to it), the promotion of any rule
    resolved from a promotion is that promotion: [resolve_promotion] keys
    [PromotionByIdLoader] by the rule's [promotion_id], with one loader
    call. *)
Theorem rule_promotion_round_trip
    (p : models.Promotion) (ctx : Context)
    (rules : list models.PromotionRule) (rule : models.PromotionRule) :
  promotions_by_id ctx (models.promotion_pk p) = Some p ->
  (forall r, r ∈ rules_by_promotion_id ctx (models.promotion_pk p) ->
             models.promotion_id r = models.promotion_pk p) ->
  outcome (Promotion.resolve_rules p ctx) = Returned rules ->
  rule ∈ rules ->
  run (PromotionRule.resolve_promotion rule ctx)
  = (Returned (Some p), [Load PromotionByIdLoader (models.promotion_pk p)]).
Proof.
  intros Hp Hback Hrules Hin.
  unfold outcome, run, Promotion.resolve_rules, load, bind, call, ret in Hrules.
  simpl in Hrules. injection Hrules as <-.
  unfold run, PromotionRule.resolve_promotion, load, bind, call, ret. simpl.
  rewrite (Hback rule Hin), Hp. reflexivity.
Qed.

Lemma rule_promotion_round_trip_witness :
  run (PromotionRule.resolve_promotion samples.rule_b (samples.context None))
  = (Returned (Some samples.sale), [Load PromotionByIdLoader 10]).
Proof.
  apply (rule_promotion_round_trip
           samples.sale (samples.context None)
           [samples.rule_a; samples.rule_b] samples.rule_b).
  - reflexivity.
  - intros r Hr. simpl in Hr. rewrite !elem_of_cons, elem_of_nil in Hr.
    destruct Hr as [-> | [-> | []]]; reflexivity.
  - reflexivity.
  - apply list_elem_of_further, list_elem_of_here.
Defined.
